(** * Specfem3DGlobe.Mesher: the mesher component of SPECFEM3D_GLOBE

    A shallow embedding of [src/Specfem3DGlobe/Mesher.py] (Python 2, on the
    pyre component framework) and the verification of its validation rules,
    its processor count and its dispatch to the Fortran mesher.

    - Python [int]s are unbounded, so they are [Z]; on them Python 2's [/] is
      floor division and [%] takes the sign of the divisor, which is what
      [Z.div] and [Z.modulo] compute for a nonzero divisor.  A zero divisor
      raises [ZeroDivisionError].
    - [_validate] reports through the mutable [context] object it is given
      and reads the attributes of [self]; both live in an explicit store
      that is threaded through an exception-and-state monad.
    - [execute] talks to the outside world (an import, a print, the call
      into Fortran); it is an interaction tree over these three events. *)

From Stdlib Require Import ZArith List String Bool Lia Eqdep FinFun.
From ITree Require Import ITree.
Import ListNotations.
Local Open Scope string_scope.
Local Open Scope list_scope.
Local Open Scope Z_scope.

(** ** Python primitives *)

Module Py.

(** The exceptions the module constructs or can raise. *)
Inductive Exception : Type :=
| ValueError (msg : string)
| ZeroDivisionError.

Section Monad.
(** [S] is the store: the objects the method can reach. *)
Variable S : Type.

(** A computation either returns or raises; the store survives both,
    since objects mutated before a raise stay mutated. *)
Definition M (A : Type) : Type := S -> (Exception + A) * S.

Definition ret {A} (a : A) : M A := fun s => (inr a, s).

Definition raise {A} (e : Exception) : M A := fun s => (inl e, s).

Definition bind {A B} (m : M A) (k : A -> M B) : M B :=
  fun s =>
    match m s with
    | (inl e, s') => (inl e, s')
    | (inr a, s') => k a s'
    end.

Definition gets {A} (f : S -> A) : M A := fun s => (inr (f s), s).

Definition modify (f : S -> S) : M unit := fun s => (inr tt, f s).

(** [returns m s a s']: from [s], [m] returns [a] and leaves [s']. *)
Definition returns {A} (m : M A) (s : S) (a : A) (s' : S) : Prop :=
  m s = (inr a, s').

(** [raises m s e s']: from [s], [m] raises [e] and leaves [s']. *)
Definition raises {A} (m : M A) (s : S) (e : Exception) (s' : S) : Prop :=
  m s = (inl e, s').
End Monad.

Arguments ret {S A} a.
Arguments raise {S A} e.
Arguments bind {S A B} m k.
Arguments gets {S A} f.
Arguments modify {S} f.
Arguments returns {S A} m s a s'.
Arguments raises {S A} m s e s'.

(** [a / b] on Python 2 ints. *)
Definition floordiv {S} (a b : Z) : M S Z :=
  if b =? 0 then raise ZeroDivisionError else ret (a / b).

(** [a % b] on Python ints. *)
Definition mod_ {S} (a b : Z) : M S Z :=
  if b =? 0 then raise ZeroDivisionError else ret (a mod b).

(** [a != b] on Python ints. *)
Definition ne (a b : Z) : bool := negb (a =? b).

End Py.

Import Py.

Declare Scope py_scope.
Delimit Scope py_scope with py.
Notation "x <- m ;; k" := (bind m (fun x => k))
  (at level 61, m at next level, right associativity) : py_scope.
Notation "m ;; k" := (bind m (fun _ => k))
  (at level 61, right associativity) : py_scope.
Local Open Scope py_scope.

(** ** The component *)

(** The traits of the inventory that validation errors point at
    ([self.metainventory.X]). *)
Inductive Trait : Type :=
| mi_angular_width_xi
| mi_angular_width_eta
| mi_NEX_XI
| mi_NEX_ETA
| mi_NPROC_XI
| mi_NPROC_ETA.

(** What [context.error(error, items=[...])] records. *)
Record ConfigError : Type := mkConfigError {
  error : Exception;
  items : list Trait
}.

(** The events of [execute]. *)
Section Events.
Variable Script : Type.

(** [Import_meshfem3D] is [from PyxMeshfem import meshfem3D],
    [Print_execute] is [print "execute", meshfem3D] and [Call_meshfem3D]
    is [meshfem3D(script)], the call into Fortran. *)
Variant MeshfemE : Type -> Type :=
| Import_meshfem3D : MeshfemE unit
| Print_execute : MeshfemE unit
| Call_meshfem3D (script : Script) : MeshfemE unit.
End Events.

Arguments Import_meshfem3D {Script}.
Arguments Print_execute {Script}.
Arguments Call_meshfem3D {Script} script.

(** pyre's unit-carrying quantities ([pyre.dimensional]) are not part of
    this repository: their type, the value of [90.0*deg] and their [!=]
    form an interface. *)
Class Units : Type := {
  dimensional : Type;
  deg90 : dimensional;
  dim_ne : dimensional -> dimensional -> bool
}.

Section Mesher.

Context {U : Units}.

(** The inventory (lines 21-34). *)
Record Mesher : Type := mkMesher {
  SAVE_MESH_FILES : bool;
  dry : bool;
  angular_width_xi : dimensional;
  angular_width_eta : dimensional;
  center_latitude : dimensional;
  center_longitude : dimensional;
  gamma_rotation_azimuth : dimensional;
  NCHUNKS : Z;
  NEX_XI : Z;
  NEX_ETA : Z;
  NPROC_XI : Z;
  NPROC_ETA : Z
}.

(** The validators of the inventory, checked when a value is set:
    [choice([1,2,3,6])] and [greaterEqual(1)]. *)
Definition inventory_valid (m : Mesher) : Prop :=
  In (NCHUNKS m) [1; 2; 3; 6] /\ 1 <= NPROC_XI m /\ 1 <= NPROC_ETA m.

(** The store of a call: the component and the errors held by the
    context object. *)
Record Store : Type := mkStore {
  self : Mesher;
  errors : list ConfigError
}.

(** [push s l]: [s] after its context has recorded the errors [l]. *)
Definition push (s : Store) (l : list ConfigError) : Store :=
  mkStore (self s) (errors s ++ l).

(** [keeps_self c]: however [c] ends, it leaves the component as it
    found it. *)
Definition keeps_self {A} (c : M Store A) : Prop :=
  forall s, self (snd (c s)) = self s.

(** [self.X] *)
Definition attr {A} (f : Mesher -> A) : M Store A :=
  gets (fun s => f (self s)).

(** [context.error(e, items=its)]: pyre's context keeps the errors it is
    given, with the traits they point at, in the order they come. *)
Definition context_error (e : Exception) (its : list Trait) : M Store unit :=
  modify (fun s => mkStore (self s) (errors s ++ [mkConfigError e its])).

(** [a and b], which evaluates [b] only when [a] is true. *)
Definition and_ (a b : M Store bool) : M Store bool :=
  x <- a ;; if (x : bool) then b else ret false.

(** [if c: body] *)
Definition if_ (c : M Store bool) (body : M Store unit) : M Store unit :=
  x <- c ;; if (x : bool) then body else ret tt.

(** [Component._validate], the method of the base class, is pyre's. *)
Class Component : Type := {
  super_validate : M Store unit
}.

Context {C : Component}.

Definition _validate : M Store unit :=
  super_validate ;;
  (* this MUST be 90 degrees for two chunks or more to match geometrically *)
  if_ (and_ (n <- attr NCHUNKS ;; ret (n >? 1))
            (w <- attr angular_width_xi ;; ret (dim_ne w deg90)))
      (context_error
         (ValueError "'angular-width-xi' must be 90 degrees for more than one chunk")
         [mi_angular_width_xi]) ;;
  (* this can be any value in the case of two chunks *)
  if_ (and_ (n <- attr NCHUNKS ;; ret (n >? 2))
            (w <- attr angular_width_eta ;; ret (dim_ne w deg90)))
      (context_error
         (ValueError "'angular-width-eta' must be 90 degrees for more than two chunks")
         [mi_angular_width_eta]) ;;
  (* check that topology is correct if more than two chunks *)
  if_ (and_ (n <- attr NCHUNKS ;; ret (n >? 2))
            (px <- attr NPROC_XI ;; pe <- attr NPROC_ETA ;; ret (ne px pe)))
      (context_error
         (ValueError "'nproc-xi' and 'nproc-eta' must be equal for more than two chunks")
         [mi_NPROC_XI; mi_NPROC_ETA]) ;;
  (* check that size can be coarsened in depth twice (block size multiple of 8) *)
  if_ (nx <- attr NEX_XI ;; q <- floordiv nx 8 ;;
       px <- attr NPROC_XI ;; r <- mod_ q px ;; ret (ne r 0))
      (context_error
         (ValueError "'nex-xi' must be a multiple of 8*nproc-xi")
         [mi_NEX_XI]) ;;
  if_ (ny <- attr NEX_ETA ;; q <- floordiv ny 8 ;;
       pe <- attr NPROC_ETA ;; r <- mod_ q pe ;; ret (ne r 0))
      (context_error
         (ValueError "'nex-eta' must be a multiple of 8*nproc-eta")
         [mi_NEX_ETA]) ;;
  if_ (nx <- attr NEX_XI ;; r <- mod_ nx 8 ;; ret (ne r 0))
      (context_error
         (ValueError "'nex-xi' must be a multiple of 8")
         [mi_NEX_XI]) ;;
  if_ (ny <- attr NEX_ETA ;; r <- mod_ ny 8 ;; ret (ne r 0))
      (context_error
         (ValueError "'nex-eta' must be a multiple of 8")
         [mi_NEX_ETA]) ;;
  (* check that sphere can be cut into slices without getting negative Jacobian *)
  if_ (nx <- attr NEX_XI ;; ret (nx <? 48))
      (context_error
         (ValueError "'nex-xi' must be greater than 48 to cut the sphere into slices with positive Jacobian")
         [mi_NEX_XI]) ;;
  if_ (ny <- attr NEX_ETA ;; ret (ny <? 48))
      (context_error
         (ValueError "'nex-eta' must be greater than 48 to cut the sphere into slices with positive Jacobian")
         [mi_NEX_ETA]) ;;
  (* number of elements in each slice (i.e. per processor) *)
  NEX_PER_PROC_XI <- (nx <- attr NEX_XI ;; px <- attr NPROC_XI ;; floordiv nx px) ;;
  NEX_PER_PROC_ETA <- (ny <- attr NEX_ETA ;; pe <- attr NPROC_ETA ;; floordiv ny pe) ;;
  (* one doubling layer in outer core (block size multiple of 16) *)
  if_ (r <- mod_ NEX_PER_PROC_XI 16 ;; ret (ne r 0))
      (context_error
         (ValueError "'nex-xi / nproc-xi' (i.e., elements per processor) must be a multiple of 16 for outer core doubling")
         [mi_NEX_XI; mi_NPROC_XI]) ;;
  if_ (r <- mod_ NEX_PER_PROC_ETA 16 ;; ret (ne r 0))
      (context_error
         (ValueError "'nex-eta / nproc-eta' (i.e., elements per processor) must be a multiple of 16 for outer core doubling")
         [mi_NEX_ETA; mi_NPROC_ETA]) ;;
  (* check that number of elements per processor is the same in both directions *)
  if_ (and_ (n <- attr NCHUNKS ;; ret (n >? 2))
            (ret (ne NEX_PER_PROC_XI NEX_PER_PROC_ETA)))
      (context_error
         (ValueError "must have the same number of elements per processor in both directions for more than two chunks")
         [mi_NEX_XI; mi_NPROC_XI; mi_NEX_ETA; mi_NPROC_ETA]) ;;
  ret tt.

(** [nproc]: the total number of processors needed. *)
Definition nproc : M Store Z :=
  c <- attr NCHUNKS ;; px <- attr NPROC_XI ;; pe <- attr NPROC_ETA ;;
  ret (c * px * pe).

(** [execute]: the import, then the print (dry) or the call. *)
Definition execute {Script} (m : Mesher) (script : Script) : itree (MeshfemE Script) unit :=
  ITree.bind (ITree.trigger Import_meshfem3D) (fun _ =>
    if dry m
    then ITree.trigger Print_execute
    else ITree.trigger (Call_meshfem3D script)).

End Mesher.

(** [validate]: one validation pass over a component with a fresh context,
    as the framework runs it. *)
Definition validate {U : Units} {C : Component} (m : Mesher) :
  (Exception + unit) * Store :=
  _validate (mkStore m []).

(** [invokes_meshfem3D t]: some run of [t] reaches the call into Fortran. *)
Inductive invokes_meshfem3D {Script R} (t : itree (MeshfemE Script) R) : Prop :=
| invokes_now script k :
    observe t = VisF (Call_meshfem3D script) k -> invokes_meshfem3D t
| invokes_after X (e : MeshfemE Script X) k x :
    observe t = VisF e k -> invokes_meshfem3D (k x) -> invokes_meshfem3D t
| invokes_tau t' :
    observe t = TauF t' -> invokes_meshfem3D t' -> invokes_meshfem3D t.

(** What a run of [execute] does to the outside, step by step: the import
    of the extension module, the print, the call with its argument. *)
Inductive Action (Script : Type) : Type :=
| Imported
| Printed
| Called (script : Script).

Arguments Imported {Script}.
Arguments Printed {Script}.
Arguments Called {Script} script.

Definition action_of {Script X} (e : MeshfemE Script X) : Action Script :=
  match e with
  | Import_meshfem3D => Imported
  | Print_execute => Printed
  | Call_meshfem3D script => Called script
  end.

(** [runs t l r]: [t] performs the actions [l], in this order, and then
    returns [r]. *)
Inductive runs {Script R} (t : itree (MeshfemE Script) R) :
  list (Action Script) -> R -> Prop :=
| runs_ret r :
    observe t = RetF r -> runs t [] r
| runs_tau t' l r :
    observe t = TauF t' -> runs t' l r -> runs t l r
| runs_vis X (e : MeshfemE Script X) k x l r :
    observe t = VisF e k -> runs (k x) l r -> runs t (action_of e :: l) r.

(** ** The rule table of the specification *)

Inductive Rule : Type :=
| R1 | R2 | R3 | R4 | R5 | R6 | R7 | R8 | R9 | R10 | R11 | R12.

Definition all_rules : list Rule :=
  [R1; R2; R3; R4; R5; R6; R7; R8; R9; R10; R11; R12].

(** The entry that stands for each rule in a report. *)
Definition rule_error (r : Rule) : ConfigError :=
  match r with
  | R1 => mkConfigError
      (ValueError "'angular-width-xi' must be 90 degrees for more than one chunk")
      [mi_angular_width_xi]
  | R2 => mkConfigError
      (ValueError "'angular-width-eta' must be 90 degrees for more than two chunks")
      [mi_angular_width_eta]
  | R3 => mkConfigError
      (ValueError "'nproc-xi' and 'nproc-eta' must be equal for more than two chunks")
      [mi_NPROC_XI; mi_NPROC_ETA]
  | R4 => mkConfigError
      (ValueError "'nex-xi' must be a multiple of 8*nproc-xi")
      [mi_NEX_XI]
  | R5 => mkConfigError
      (ValueError "'nex-eta' must be a multiple of 8*nproc-eta")
      [mi_NEX_ETA]
  | R6 => mkConfigError
      (ValueError "'nex-xi' must be a multiple of 8")
      [mi_NEX_XI]
  | R7 => mkConfigError
      (ValueError "'nex-eta' must be a multiple of 8")
      [mi_NEX_ETA]
  | R8 => mkConfigError
      (ValueError "'nex-xi' must be greater than 48 to cut the sphere into slices with positive Jacobian")
      [mi_NEX_XI]
  | R9 => mkConfigError
      (ValueError "'nex-eta' must be greater than 48 to cut the sphere into slices with positive Jacobian")
      [mi_NEX_ETA]
  | R10 => mkConfigError
      (ValueError "'nex-xi / nproc-xi' (i.e., elements per processor) must be a multiple of 16 for outer core doubling")
      [mi_NEX_XI; mi_NPROC_XI]
  | R11 => mkConfigError
      (ValueError "'nex-eta / nproc-eta' (i.e., elements per processor) must be a multiple of 16 for outer core doubling")
      [mi_NEX_ETA; mi_NPROC_ETA]
  | R12 => mkConfigError
      (ValueError "must have the same number of elements per processor in both directions for more than two chunks")
      [mi_NEX_XI; mi_NPROC_XI; mi_NEX_ETA; mi_NPROC_ETA]
  end.

(** The position of a rule in the table, from 1. *)
Definition rule_number (r : Rule) : Z :=
  match r with
  | R1 => 1 | R2 => 2 | R3 => 3 | R4 => 4 | R5 => 5 | R6 => 6
  | R7 => 7 | R8 => 8 | R9 => 9 | R10 => 10 | R11 => 11 | R12 => 12
  end.

Section RuleTable.

Context {U : Units}.

(** When the specification's table (its section 4.2) calls a rule
    violated: the guard of the rule and its violation condition, with [/]
    and [mod] as [Z.div] and [Z.modulo]. *)
Definition spec_violated (m : Mesher) (r : Rule) : bool :=
  match r with
  | R1 => (NCHUNKS m >? 1) && dim_ne (angular_width_xi m) deg90
  | R2 => (NCHUNKS m >? 2) && dim_ne (angular_width_eta m) deg90
  | R3 => (NCHUNKS m >? 2) && negb (NPROC_XI m =? NPROC_ETA m)
  | R4 => negb ((NEX_XI m / 8) mod NPROC_XI m =? 0)
  | R5 => negb ((NEX_ETA m / 8) mod NPROC_ETA m =? 0)
  | R6 => negb (NEX_XI m mod 8 =? 0)
  | R7 => negb (NEX_ETA m mod 8 =? 0)
  | R8 => NEX_XI m <? 48
  | R9 => NEX_ETA m <? 48
  | R10 => negb ((NEX_XI m / NPROC_XI m) mod 16 =? 0)
  | R11 => negb ((NEX_ETA m / NPROC_ETA m) mod 16 =? 0)
  | R12 => (NCHUNKS m >? 2)
           && negb (NEX_XI m / NPROC_XI m =? NEX_ETA m / NPROC_ETA m)
  end.

(** The report of the specification: one entry per violated rule, in
    the order of the table. *)
Definition spec_report (m : Mesher) : list ConfigError :=
  map rule_error (filter (spec_violated m) all_rules).

End RuleTable.

(** ** A stand-in for pyre, to run the component on concrete inputs *)

(** Angles in whole degrees. *)
Definition DegreeUnits : Units :=
  {| dimensional := Z; deg90 := 90; dim_ne := ne |}.

(** A base class whose [_validate] accepts everything. *)
Definition PlainComponent : @Component DegreeUnits :=
  {| super_validate := ret tt |}.

(** The defaults of the inventory (lines 21-34). *)
Definition default_mesher : @Mesher DegreeUnits :=
  {| SAVE_MESH_FILES := false; dry := false;
     angular_width_xi := 90 : @dimensional DegreeUnits;
     angular_width_eta := 90 : @dimensional DegreeUnits;
     center_latitude := 0 : @dimensional DegreeUnits;
     center_longitude := 0 : @dimensional DegreeUnits;
     gamma_rotation_azimuth := 0 : @dimensional DegreeUnits;
     NCHUNKS := 6; NEX_XI := 64; NEX_ETA := 64;
     NPROC_XI := 1; NPROC_ETA := 1 |}.

(** [with_grid m c nx ny px pe]: [m] with its chunk count, element counts
    and processor grid replaced. *)
Definition with_grid (m : @Mesher DegreeUnits) (c nx ny px pe : Z) :
  @Mesher DegreeUnits :=
  {| SAVE_MESH_FILES := SAVE_MESH_FILES m; dry := dry m;
     angular_width_xi := angular_width_xi m;
     angular_width_eta := angular_width_eta m;
     center_latitude := center_latitude m;
     center_longitude := center_longitude m;
     gamma_rotation_azimuth := gamma_rotation_azimuth m;
     NCHUNKS := c; NEX_XI := nx; NEX_ETA := ny;
     NPROC_XI := px; NPROC_ETA := pe |}.

(** [with_widths m xi eta]: [m] with its two angular widths replaced. *)
Definition with_widths (m : @Mesher DegreeUnits) (xi eta : Z) :
  @Mesher DegreeUnits :=
  {| SAVE_MESH_FILES := SAVE_MESH_FILES m; dry := dry m;
     angular_width_xi := xi : @dimensional DegreeUnits;
     angular_width_eta := eta : @dimensional DegreeUnits;
     center_latitude := center_latitude m;
     center_longitude := center_longitude m;
     gamma_rotation_azimuth := gamma_rotation_azimuth m;
     NCHUNKS := NCHUNKS m; NEX_XI := NEX_XI m; NEX_ETA := NEX_ETA m;
     NPROC_XI := NPROC_XI m; NPROC_ETA := NPROC_ETA m |}.

(** [m] with its [dry] flag set. *)
Definition with_dry (m : @Mesher DegreeUnits) (d : bool) : @Mesher DegreeUnits :=
  {| SAVE_MESH_FILES := SAVE_MESH_FILES m; dry := d;
     angular_width_xi := angular_width_xi m;
     angular_width_eta := angular_width_eta m;
     center_latitude := center_latitude m;
     center_longitude := center_longitude m;
     gamma_rotation_azimuth := gamma_rotation_azimuth m;
     NCHUNKS := NCHUNKS m; NEX_XI := NEX_XI m; NEX_ETA := NEX_ETA m;
     NPROC_XI := NPROC_XI m; NPROC_ETA := NPROC_ETA m |}.

(** The errors a validation pass leaves in its context. *)
Definition report_of (m : @Mesher DegreeUnits) : list ConfigError :=
  errors (snd (@validate DegreeUnits PlainComponent m)).

(** A fresh store around a component. *)
Definition fresh (m : @Mesher DegreeUnits) : @Store DegreeUnits :=
  mkStore m [].

(** Six chunks, [NEX_XI = 50] on one processor. *)
Definition nex_50 : @Mesher DegreeUnits :=
  with_grid default_mesher 6 50 64 1 1.

(** Six chunks at 80 degrees in xi, 64 by 40 elements on a 2 by 1 grid:
    rules 1, 3, 9, 11 and 12 are violated. *)
Definition five_violations : @Mesher DegreeUnits :=
  with_widths (with_grid default_mesher 6 64 40 2 1) 80 90.

(** One chunk at 80 degrees, 48 by 47 elements. *)
Definition one_chunk_48_47 : @Mesher DegreeUnits :=
  with_widths (with_grid default_mesher 1 48 47 1 1) 80 90.

(** Six chunks, 96 by 96 elements on a 2 by 2 grid. *)
Definition grid_96_2 : @Mesher DegreeUnits :=
  with_grid default_mesher 6 96 96 2 2.

(** Six chunks at 80 degrees in xi, no processor along xi. *)
Definition no_proc_xi : @Mesher DegreeUnits :=
  with_widths (with_grid default_mesher 6 64 64 0 1) 80 90.

(** Six chunks at 80 degrees in xi, 50 elements along xi on 4 processors,
    no processor along eta. *)
Definition no_proc_eta : @Mesher DegreeUnits :=
  with_widths (with_grid default_mesher 6 50 64 4 0) 80 90.

(** * Verification *)

(** ** Runs of the monad *)

Section Runs.

Context {S : Type}.

Lemma returns_ret {A} (a : A) (s : S) : returns (ret a) s a s.
Proof. reflexivity. Qed.

Lemma returns_bind {A B} (m : M S A) (k : A -> M S B) (s : S) a s1 b s2 :
  returns m s a s1 -> returns (k a) s1 b s2 -> returns (bind m k) s b s2.
Proof. unfold returns, bind. intros -> Hk. exact Hk. Qed.

Lemma returns_gets {A} (f : S -> A) s : returns (gets f) s (f s) s.
Proof. reflexivity. Qed.

Lemma returns_modify (f : S -> S) s : returns (modify f) s tt (f s).
Proof. reflexivity. Qed.

Lemma returns_floordiv a b (s : S) : b <> 0 -> returns (floordiv a b) s (a / b) s.
Proof.
  intros Hb. unfold returns, floordiv.
  destruct (Z.eqb_spec b 0) as [E | _]; [contradiction | reflexivity].
Qed.

Lemma returns_mod a b (s : S) : b <> 0 -> returns (mod_ a b) s (a mod b) s.
Proof.
  intros Hb. unfold returns, mod_.
  destruct (Z.eqb_spec b 0) as [E | _]; [contradiction | reflexivity].
Qed.

(** A zero divisor is the only way the two operators raise. *)
Lemma floordiv_raises a b s e s' :
  floordiv (S := S) a b s = (inl e, s') -> b = 0 /\ e = ZeroDivisionError /\ s' = s.
Proof.
  unfold floordiv. destruct (Z.eqb_spec b 0) as [E | _]; cbv [raise ret].
  - intros [= <- <-]. auto.
  - discriminate.
Qed.

Lemma mod_raises a b s e s' :
  mod_ (S := S) a b s = (inl e, s') -> b = 0 /\ e = ZeroDivisionError /\ s' = s.
Proof.
  unfold mod_. destruct (Z.eqb_spec b 0) as [E | _]; cbv [raise ret].
  - intros [= <- <-]. auto.
  - discriminate.
Qed.

Lemma raises_bind_l {A B} (m : M S A) (k : A -> M S B) (s : S) e s' :
  raises m s e s' -> raises (bind m k) s e s'.
Proof. unfold raises, bind. intros ->. reflexivity. Qed.

Lemma raises_bind_r {A B} (m : M S A) (k : A -> M S B) (s : S) a s1 e s2 :
  returns m s a s1 -> raises (k a) s1 e s2 -> raises (bind m k) s e s2.
Proof. unfold returns, raises, bind. intros -> Hk. exact Hk. Qed.

Lemma raises_floordiv_zero a (s : S) :
  raises (floordiv a 0) s ZeroDivisionError s.
Proof. reflexivity. Qed.

Lemma raises_mod_zero a (s : S) : raises (mod_ a 0) s ZeroDivisionError s.
Proof. reflexivity. Qed.

Lemma raises_mod_eq0 a b (s : S) :
  b = 0 -> raises (mod_ a b) s ZeroDivisionError s.
Proof. intros ->. reflexivity. Qed.

End Runs.

Create HintDb py_run discriminated.
#[global] Hint Resolve returns_ret returns_gets returns_modify : py_run.

(** ** Multiples of the block sizes *)

Lemma multiple_of_8p n p :
  1 <= p -> (n mod (8 * p) = 0 <-> n mod 8 = 0 /\ (n / 8) mod p = 0).
Proof.
  intros Hp. rewrite Z.rem_mul_r by lia.
  pose proof (Z.mod_pos_bound n 8 ltac:(lia)).
  pose proof (Z.mod_pos_bound (n / 8) p ltac:(lia)).
  lia.
Qed.

Lemma multiple_of_kp n k p :
  1 <= k -> 1 <= p -> (n mod (k * p) = 0 <-> n mod p = 0 /\ (n / p) mod k = 0).
Proof.
  intros Hk Hp. rewrite (Z.mul_comm k p), Z.rem_mul_r by lia.
  pose proof (Z.mod_pos_bound n p ltac:(lia)).
  pose proof (Z.mod_pos_bound (n / p) k ltac:(lia)).
  nia.
Qed.

Lemma multiple_of_16p n p :
  1 <= p ->
  (n mod (16 * p) = 0 <->
   n mod 8 = 0 /\ (n / 8) mod p = 0 /\ (n / p) mod 16 = 0).
Proof.
  intros Hp. rewrite (multiple_of_kp n 16 p) by lia.
  rewrite <- and_assoc, <- multiple_of_8p by lia.
  split.
  - intros [Hn Hq]. split; [| exact Hq].
    apply Z.mod_divide in Hn; [| lia]. destruct Hn as [c Hc].
    apply Z.mod_divide; [lia |].
    assert (Hd : n / p = c) by (subst n; apply Z.div_mul; lia).
    rewrite Hd in Hq. apply Z.mod_divide in Hq; [| lia]. destruct Hq as [d Hdd].
    exists (2 * d). lia.
  - intros [Hn Hq]. split; [| exact Hq].
    apply Z.mod_divide in Hn; [| lia]. destruct Hn as [c Hc].
    apply Z.mod_divide; [lia |]. exists (8 * c). lia.
Qed.

Lemma multiple_of_16p_exact n p :
  1 <= p -> n mod (16 * p) = 0 -> p * (n / p) = n /\ (n / p) mod 16 = 0.
Proof.
  intros Hp Hn. apply (multiple_of_kp n 16 p) in Hn; [| lia | lia].
  destruct Hn as [Hn Hq]. split; [| exact Hq].
  pose proof (Z.div_mod n p ltac:(lia)). lia.
Qed.

(** ** Runs of the component *)

Lemma map_filter_cons {A B} (f : A -> B) (p : A -> bool) x l :
  map f (filter p (x :: l)) = (if p x then [f x] else []) ++ map f (filter p l).
Proof. cbn [filter]. destruct (p x); reflexivity. Qed.

Section MesherRuns.

Context {U : Units} {C : Component}.

Lemma self_push s l : self (push s l) = self s.
Proof. reflexivity. Qed.

Lemma push_push s l1 l2 : push (push s l1) l2 = push s (l1 ++ l2).
Proof. unfold push. cbn [self errors]. now rewrite app_assoc. Qed.

Lemma push_nil s : push s [] = s.
Proof. destruct s as [m ctx]. unfold push. cbn [self errors]. now rewrite app_nil_r. Qed.

Lemma returns_attr {A} (f : Mesher -> A) m ctx :
  returns (attr f) (mkStore m ctx) (f m) (mkStore m ctx).
Proof. reflexivity. Qed.

Lemma returns_context_error e its s :
  returns (context_error e its) s tt (push s [mkConfigError e its]).
Proof. reflexivity. Qed.

Lemma returns_and_ (a b : M Store bool) s x y :
  returns a s x s -> returns b s y s -> returns (and_ a b) s (x && y) s.
Proof.
  intros Ha Hb. unfold and_. eapply returns_bind; [exact Ha |].
  destruct x; [exact Hb | apply returns_ret].
Qed.

Lemma returns_if_ (c : M Store bool) e its m ctx b :
  returns c (mkStore m ctx) b (mkStore m ctx) ->
  returns (if_ c (context_error e its)) (mkStore m ctx) tt
          (mkStore m (ctx ++ if b then [mkConfigError e its] else [])).
Proof.
  intros Hc. unfold if_. eapply returns_bind; [exact Hc |].
  destruct b; [apply returns_context_error |].
  rewrite app_nil_r. apply returns_ret.
Qed.

(** The evaluation of a condition, operator by operator. *)
Ltac run_cond :=
  repeat lazymatch goal with
    | |- returns (and_ _ _) _ _ _ => apply returns_and_
    | |- returns (attr _) _ _ _ => apply returns_attr
    | |- returns (ret _) _ _ _ => apply returns_ret
    | |- returns (floordiv _ _) _ _ _ => apply returns_floordiv
    | |- returns (mod_ _ _) _ _ _ => apply returns_mod
    | |- returns (bind _ _) _ _ _ => eapply returns_bind
    | |- returns ((fun _ => _) _) _ _ _ => cbv beta
    end.

(** One [if cond: context.error(...)] statement. *)
Ltac run_rule :=
  eapply returns_bind; [ apply returns_if_; run_cond; try lia | ].

(** With a processor grid that is zero in neither direction, the twelve
    statements run to the end and leave exactly the report of the
    specification. *)
Lemma _validate_returns_nonzero st st1 :
  returns super_validate st tt st1 ->
  NPROC_XI (self st1) <> 0 -> NPROC_ETA (self st1) <> 0 ->
  returns _validate st tt (push st1 (spec_report (self st1))).
Proof.
  intros Hsuper Hxi Heta. unfold _validate.
  eapply returns_bind; [exact Hsuper |].
  destruct st1 as [m ctx]. cbn [self] in Hxi, Heta.
  do 9 run_rule.
  eapply returns_bind; [run_cond; lia |].
  eapply returns_bind; [run_cond; lia |].
  do 3 run_rule.
  unfold returns, ret, push. cbn [self errors]. do 2 f_equal.
  rewrite <- !app_assoc. f_equal.
  unfold spec_report, all_rules. rewrite !map_filter_cons.
  cbn [filter map]. rewrite app_nil_r. reflexivity.
Qed.

(** The same for the grids the inventory lets in. *)
Lemma _validate_returns st st1 :
  returns super_validate st tt st1 ->
  1 <= NPROC_XI (self st1) -> 1 <= NPROC_ETA (self st1) ->
  returns _validate st tt (push st1 (spec_report (self st1))).
Proof.
  intros Hsuper Hxi Heta. apply _validate_returns_nonzero; [exact Hsuper | lia | lia].
Qed.

Lemma inventory_valid_grid (m : Mesher) :
  inventory_valid m -> 1 <= NPROC_XI m /\ 1 <= NPROC_ETA m.
Proof. unfold inventory_valid. tauto. Qed.

(** With an empty processor grid in either direction the method raises
    [ZeroDivisionError] at line 64 or line 67. *)
Lemma _validate_raises st st1 :
  returns super_validate st tt st1 ->
  NPROC_XI (self st1) = 0 \/ NPROC_ETA (self st1) = 0 ->
  exists st', raises _validate st ZeroDivisionError st'.
Proof.
  intros Hsuper Hzero. destruct st1 as [m ctx]. cbn [self] in Hzero.
  destruct (Z.eq_dec (NPROC_XI m) 0) as [Hx | Hx];
    eexists; unfold _validate;
    (eapply raises_bind_r; [exact Hsuper |]);
    do 3 (eapply raises_bind_r; [apply returns_if_; run_cond |]).
  - eapply raises_bind_l. unfold if_. eapply raises_bind_l.
    eapply raises_bind_r; [apply returns_attr |].
    eapply raises_bind_r; [apply returns_floordiv; lia |].
    eapply raises_bind_r; [apply returns_attr |].
    eapply raises_bind_l. cbv beta. rewrite Hx. apply raises_mod_zero.
  - assert (He : NPROC_ETA m = 0) by tauto.
    eapply raises_bind_r; [apply returns_if_; run_cond; lia |].
    eapply raises_bind_l. unfold if_. eapply raises_bind_l.
    eapply raises_bind_r; [apply returns_attr |].
    eapply raises_bind_r; [apply returns_floordiv; lia |].
    eapply raises_bind_r; [apply returns_attr |].
    eapply raises_bind_l. cbv beta. rewrite He. apply raises_mod_zero.
Qed.

(** So, after the base class, the method raises exactly on a grid that is
    zero in some direction. *)
Lemma _validate_raises_iff st st1 :
  returns super_validate st tt st1 ->
  (exists e st', raises _validate st e st') <->
  NPROC_XI (self st1) = 0 \/ NPROC_ETA (self st1) = 0.
Proof.
  intros Hsuper. split.
  - intros (e & st' & Hraise).
    destruct (Z.eq_dec (NPROC_XI (self st1)) 0) as [Hx | Hx]; [left; exact Hx |].
    destruct (Z.eq_dec (NPROC_ETA (self st1)) 0) as [He | He]; [right; exact He |].
    pose proof (_validate_returns_nonzero st st1 Hsuper Hx He) as Hret.
    unfold returns in Hret. unfold raises in Hraise.
    rewrite Hret in Hraise. discriminate Hraise.
  - intros Hzero. destruct (_validate_raises st st1 Hsuper Hzero) as (st' & H).
    exists ZeroDivisionError, st'. exact H.
Qed.

(** The entries of the rules of [l] that the specification calls
    violated. *)
Lemma partial_report_cons m r l :
  map rule_error (filter (spec_violated m) (r :: l))
  = (if spec_violated m r then [rule_error r] else [])
    ++ map rule_error (filter (spec_violated m) l).
Proof. apply map_filter_cons. Qed.

(** With no processor along xi the method raises at line 64; the context
    has by then the entries of rules 1 to 3. *)
Lemma _validate_raises_at_line_64 st st1 :
  returns super_validate st tt st1 ->
  NPROC_XI (self st1) = 0 ->
  raises _validate st ZeroDivisionError
         (push st1 (map rule_error
                        (filter (spec_violated (self st1)) [R1; R2; R3]))).
Proof.
  intros Hsuper Hx. destruct st1 as [m ctx]. cbn [self] in Hx.
  enough (H : exists s',
             raises _validate st ZeroDivisionError s'
             /\ s' = push (mkStore m ctx)
                          (map rule_error
                               (filter (spec_violated m) [R1; R2; R3])))
    by (destruct H as (s' & Hr & ->); exact Hr).
  eexists. split.
  - unfold _validate.
    eapply raises_bind_r; [exact Hsuper |].
    do 3 (eapply raises_bind_r; [apply returns_if_; run_cond |]).
    eapply raises_bind_l. unfold if_. eapply raises_bind_l.
    eapply raises_bind_r; [apply returns_attr |].
    eapply raises_bind_r; [apply returns_floordiv; lia |].
    eapply raises_bind_r; [apply returns_attr |].
    eapply raises_bind_l. apply raises_mod_eq0. exact Hx.
  - unfold push. cbn [self errors]. f_equal.
    rewrite <- !app_assoc. f_equal.
    rewrite !partial_report_cons. cbn [filter map]. rewrite app_nil_r.
    reflexivity.
Qed.

(** With processors along xi and none along eta it raises at line 67,
    after rule 4 as well. *)
Lemma _validate_raises_at_line_67 st st1 :
  returns super_validate st tt st1 ->
  NPROC_XI (self st1) <> 0 -> NPROC_ETA (self st1) = 0 ->
  raises _validate st ZeroDivisionError
         (push st1 (map rule_error
                        (filter (spec_violated (self st1)) [R1; R2; R3; R4]))).
Proof.
  intros Hsuper Hx He. destruct st1 as [m ctx]. cbn [self] in Hx, He.
  enough (H : exists s',
             raises _validate st ZeroDivisionError s'
             /\ s' = push (mkStore m ctx)
                          (map rule_error
                               (filter (spec_violated m) [R1; R2; R3; R4])))
    by (destruct H as (s' & Hr & ->); exact Hr).
  eexists. split.
  - unfold _validate.
    eapply raises_bind_r; [exact Hsuper |].
    do 3 (eapply raises_bind_r; [apply returns_if_; run_cond |]).
    eapply raises_bind_r; [apply returns_if_; run_cond; lia |].
    eapply raises_bind_l. unfold if_. eapply raises_bind_l.
    eapply raises_bind_r; [apply returns_attr |].
    eapply raises_bind_r; [apply returns_floordiv; lia |].
    eapply raises_bind_r; [apply returns_attr |].
    eapply raises_bind_l. apply raises_mod_eq0. exact He.
  - unfold push. cbn [self errors]. f_equal.
    rewrite <- !app_assoc. f_equal.
    rewrite !partial_report_cons. cbn [filter map]. rewrite app_nil_r.
    reflexivity.
Qed.

(** An exception of the base class ends the method before its first rule. *)
Lemma _validate_raises_super st e st1 :
  raises super_validate st e st1 -> raises _validate st e st1.
Proof. intros H. unfold _validate. apply raises_bind_l. exact H. Qed.

End MesherRuns.

(** ** The component is only read *)

Section Frame.

Context {U : Units} {C : Component}.

Lemma keeps_ret {A} (a : A) : keeps_self (ret a).
Proof. intros s. reflexivity. Qed.

Lemma keeps_raise {A} e : keeps_self (raise (A := A) e).
Proof. intros s. reflexivity. Qed.

Lemma keeps_bind {A B} (c : M Store A) (k : A -> M Store B) :
  keeps_self c -> (forall a, keeps_self (k a)) -> keeps_self (bind c k).
Proof.
  intros Hc Hk s. unfold bind. specialize (Hc s).
  destruct (c s) as [[e | a] s1]; cbn [snd] in *; [exact Hc |].
  rewrite Hk. exact Hc.
Qed.

Lemma keeps_attr {A} (f : Mesher -> A) : keeps_self (attr f).
Proof. intros s. reflexivity. Qed.

Lemma keeps_context_error e its : keeps_self (context_error e its).
Proof. intros s. reflexivity. Qed.

Lemma keeps_floordiv a b : keeps_self (floordiv a b).
Proof. intros s. unfold floordiv. destruct (b =? 0); reflexivity. Qed.

Lemma keeps_mod a b : keeps_self (mod_ a b).
Proof. intros s. unfold mod_. destruct (b =? 0); reflexivity. Qed.

Lemma keeps_and_ (a b : M Store bool) :
  keeps_self a -> keeps_self b -> keeps_self (and_ a b).
Proof.
  intros Ha Hb. apply keeps_bind; [exact Ha |].
  intros [|]; [exact Hb | apply keeps_ret].
Qed.

Lemma keeps_if_ (c : M Store bool) (body : M Store unit) :
  keeps_self c -> keeps_self body -> keeps_self (if_ c body).
Proof.
  intros Hc Hb. apply keeps_bind; [exact Hc |].
  intros [|]; [exact Hb | apply keeps_ret].
Qed.

Ltac frame :=
  repeat lazymatch goal with
    | |- keeps_self (bind _ _) => apply keeps_bind
    | |- keeps_self (if_ _ _) => apply keeps_if_
    | |- keeps_self (and_ _ _) => apply keeps_and_
    | |- keeps_self (attr _) => apply keeps_attr
    | |- keeps_self (ret _) => apply keeps_ret
    | |- keeps_self (context_error _ _) => apply keeps_context_error
    | |- keeps_self (floordiv _ _) => apply keeps_floordiv
    | |- keeps_self (mod_ _ _) => apply keeps_mod
    | |- forall _, keeps_self _ => intro
    end.

(** Every statement of the method after the call to the base class keeps
    the component; so does the method when the base class does. *)
Lemma _validate_keeps_self_from st :
  self (snd (super_validate st)) = self st ->
  self (snd (_validate st)) = self st.
Proof.
  intros Hsuper. unfold _validate.
  match goal with
  | |- self (snd (bind _ ?k st)) = _ =>
      assert (Hk : forall a, keeps_self (k a)) by (cbv beta; frame)
  end.
  unfold bind at 1.
  destruct (super_validate st) as [[e | []] s1]; cbn [snd] in *;
    [exact Hsuper |].
  rewrite (Hk tt s1). exact Hsuper.
Qed.

Lemma nproc_keeps_self : keeps_self nproc.
Proof. unfold nproc. frame. Qed.

End Frame.

(** ** The report of the specification *)

Lemma rule_error_inj r r' : rule_error r = rule_error r' -> r = r'.
Proof. destruct r, r'; intros E; try reflexivity; discriminate E. Qed.

Lemma NoDup_all_rules : NoDup all_rules.
Proof.
  unfold all_rules.
  repeat (constructor; [cbn [In]; intros H; intuition discriminate |]).
  constructor.
Qed.

Lemma In_all_rules r : In r all_rules.
Proof. destruct r; cbn; tauto. Qed.

Section Report.

Context {U : Units}.

Lemma In_spec_report m r :
  In (rule_error r) (spec_report m) <-> spec_violated m r = true.
Proof.
  unfold spec_report. rewrite in_map_iff. split.
  - intros (r' & E & Hin). apply rule_error_inj in E. subst r'.
    apply filter_In in Hin. tauto.
  - intros Hv. exists r. split; [reflexivity |].
    apply filter_In. split; [apply In_all_rules | exact Hv].
Qed.

Lemma spec_report_sound m e :
  In e (spec_report m) -> exists r, e = rule_error r /\ spec_violated m r = true.
Proof.
  unfold spec_report. rewrite in_map_iff. intros (r & <- & Hin).
  exists r. apply filter_In in Hin. tauto.
Qed.

Lemma NoDup_spec_report m : NoDup (spec_report m).
Proof.
  unfold spec_report. apply Injective_map_NoDup.
  - intros r r'. apply rule_error_inj.
  - apply NoDup_filter, NoDup_all_rules.
Qed.

Lemma length_spec_report m :
  List.length (spec_report m)
  = List.length (filter (spec_violated m) all_rules).
Proof. unfold spec_report. apply length_map. Qed.

Lemma spec_report_nil_iff m :
  spec_report m = [] <-> forall r, spec_violated m r = false.
Proof.
  split.
  - intros Hnil r. destruct (spec_violated m r) eqn:Hv; [| reflexivity].
    apply In_spec_report in Hv. rewrite Hnil in Hv. destruct Hv.
  - intros Hnone. destruct (spec_report m) as [| e l] eqn:Hrep; [reflexivity |].
    destruct (spec_report_sound m e) as (r & _ & Hv).
    + rewrite Hrep. left. reflexivity.
    + rewrite Hnone in Hv. discriminate Hv.
Qed.

(** The entries of some of the rules: rule entries, each once, no more
    than there are rules. *)
Lemma partial_report_entries m (l : list Rule) :
  NoDup l ->
  let rep := map rule_error (filter (spec_violated m) l) in
  (forall e, In e rep -> exists r, e = rule_error r /\ In r l)
  /\ NoDup rep
  /\ (List.length rep <= List.length l)%nat.
Proof.
  intros Hl rep. unfold rep. split; [| split].
  - intros e He. apply in_map_iff in He. destruct He as (r & <- & Hin).
    exists r. apply filter_In in Hin. tauto.
  - apply Injective_map_NoDup.
    + intros r r'. apply rule_error_inj.
    + apply NoDup_filter, Hl.
  - rewrite length_map. apply filter_length_le.
Qed.

(** [g && d] is false when [d] is false wherever the guard [g] holds. *)
Lemma guarded_false (g d : bool) :
  g && d = false <-> (g = true -> d = false).
Proof. destruct g, d; cbn; intuition congruence. Qed.

(** No rule violated, in terms of the grid: the widths are 90 degrees
    where the chunks need it, each element count is at least 48 and a
    multiple of 16 times its processor count, and beyond two chunks the
    two directions agree. *)
Lemma none_violated_iff m :
  1 <= NPROC_XI m -> 1 <= NPROC_ETA m ->
  (forall r, spec_violated m r = false) <->
  (NCHUNKS m > 1 -> dim_ne (angular_width_xi m) deg90 = false)
  /\ (NCHUNKS m > 2 ->
      dim_ne (angular_width_eta m) deg90 = false
      /\ NPROC_XI m = NPROC_ETA m /\ NEX_XI m = NEX_ETA m)
  /\ NEX_XI m mod (16 * NPROC_XI m) = 0
  /\ NEX_ETA m mod (16 * NPROC_ETA m) = 0
  /\ 48 <= NEX_XI m /\ 48 <= NEX_ETA m.
Proof.
  intros Hxi Heta.
  rewrite (multiple_of_16p (NEX_XI m) (NPROC_XI m) Hxi).
  rewrite (multiple_of_16p (NEX_ETA m) (NPROC_ETA m) Heta).
  split.
  - intros H.
    pose proof (H R1) as H1. pose proof (H R2) as H2. pose proof (H R3) as H3.
    pose proof (H R4) as H4. pose proof (H R5) as H5. pose proof (H R6) as H6.
    pose proof (H R7) as H7. pose proof (H R8) as H8. pose proof (H R9) as H9.
    pose proof (H R10) as H10. pose proof (H R11) as H11.
    pose proof (H R12) as H12. clear H.
    cbn [spec_violated] in *.
    rewrite guarded_false, Z.gtb_gt in H1, H2, H3, H12.
    rewrite negb_false_iff, Z.eqb_eq in H4, H5, H6, H7, H10, H11.
    rewrite Z.ltb_ge in H8, H9.
    split; [exact H1 |]. split; [| tauto].
    intros Hc. specialize (H2 Hc). specialize (H3 Hc). specialize (H12 Hc).
    rewrite negb_false_iff, Z.eqb_eq in H3, H12.
    split; [exact H2 |]. split; [exact H3 |].
    assert (Ex : NEX_XI m mod (16 * NPROC_XI m) = 0)
      by (apply multiple_of_16p; tauto).
    assert (Ee : NEX_ETA m mod (16 * NPROC_ETA m) = 0)
      by (apply multiple_of_16p; tauto).
    apply multiple_of_16p_exact in Ex; [| exact Hxi].
    apply multiple_of_16p_exact in Ee; [| exact Heta].
    destruct Ex as [Ex _]. destruct Ee as [Ee _].
    rewrite <- Ex, <- Ee, H12, H3. reflexivity.
  - intros (H1 & H2 & (H6 & H4 & H10) & (H7 & H5 & H11) & H8 & H9) r.
    destruct r; cbn [spec_violated];
      rewrite ?guarded_false, ?Z.gtb_gt, ?negb_false_iff, ?Z.eqb_eq, ?Z.ltb_ge;
      try assumption; try tauto.
    intros Hc. destruct (H2 Hc) as (_ & -> & ->). reflexivity.
Qed.

End Report.

(** ** The dispatch *)

Section Dispatch.

Context {U : Units} {Script : Type}.

(** Reaching the call depends on a tree only through its first node. *)
Lemma invokes_observe {R} (t t' : itree (MeshfemE Script) R) :
  observe t = observe t' -> invokes_meshfem3D t -> invokes_meshfem3D t'.
Proof.
  intros E H. destruct H as [s k Ht | X e k x Ht Hk | t0 Ht Ht0].
  - eapply invokes_now. rewrite <- E. exact Ht.
  - eapply invokes_after; [rewrite <- E; exact Ht | exact Hk].
  - eapply invokes_tau; [rewrite <- E; exact Ht | exact Ht0].
Qed.

Ltac inj_events :=
  repeat match goal with
         | H : existT _ _ _ = existT _ _ _ |- _ => apply inj_pair2 in H
         end.

(** A single event that is not the call does not reach it. *)
Lemma print_no_call :
  ~ invokes_meshfem3D
      (ITree.trigger Print_execute : itree (MeshfemE Script) unit).
Proof.
  intros H. inversion H as [s k E | X e k x E Hk | t' E _]; cbn in E.
  - inversion E.
  - inversion E. subst X. inj_events. subst.
    inversion Hk as [s k' E' | X e' k' x' E' _ | t' E' _]; cbn in E';
      discriminate E'.
  - discriminate E.
Qed.

(** After the import, [execute] goes on as [dry] decides. *)
Lemma execute_after_import (m : Mesher) (script : Script) :
  invokes_meshfem3D (execute m script) <->
  invokes_meshfem3D
    (if dry m
     then ITree.trigger Print_execute
     else ITree.trigger (Call_meshfem3D script)
     : itree (MeshfemE Script) unit).
Proof.
  split.
  - intros H. inversion H as [s k E | X e k x E Hk | t' E _]; cbn in E.
    + inversion E.
    + inversion E. subst X. inj_events. subst.
      eapply invokes_observe; [| exact Hk]. reflexivity.
    + discriminate E.
  - intros H. eapply invokes_after with (x := tt); [cbn; reflexivity |].
    eapply invokes_observe; [| exact H]. reflexivity.
Qed.

Lemma execute_invokes_iff (m : Mesher) (script : Script) :
  invokes_meshfem3D (execute m script) <-> dry m = false.
Proof.
  rewrite execute_after_import. destruct (dry m); split.
  - intros H. destruct (print_no_call H).
  - discriminate.
  - reflexivity.
  - intros _. eapply invokes_now. reflexivity.
Qed.

(** What a tree performs depends on it only through its first node. *)
Lemma runs_observe {R} (t t' : itree (MeshfemE Script) R) l r :
  observe t = observe t' -> runs t l r -> runs t' l r.
Proof.
  intros E H. destruct H as [r Ht | t0 l r Ht Ht0 | X e k x l r Ht Hk].
  - apply runs_ret. rewrite <- E. exact Ht.
  - eapply runs_tau; [rewrite <- E; exact Ht | exact Ht0].
  - eapply runs_vis; [rewrite <- E; exact Ht | exact Hk].
Qed.

(** A single event performs its action and nothing else. *)
Lemma runs_trigger_iff (e : MeshfemE Script unit) l r :
  runs (ITree.trigger e) l r <-> l = [action_of e].
Proof.
  split.
  - intros H. inversion H as [r0 E | t0 l0 r0 E _ | X e0 k x l0 r0 E Hk];
      cbn in E; [discriminate E | discriminate E |].
    inversion E. subst X. inj_events. subst.
    inversion Hk as [r1 E1 | t1 l1 r1 E1 _ | X e1 k1 x1 l1 r1 E1 _];
      cbn in E1; [reflexivity | discriminate E1 | discriminate E1].
  - intros ->. destruct r.
    eapply runs_vis with (x := tt); [cbn; reflexivity |].
    apply runs_ret. reflexivity.
Qed.

(** [execute] performs the import and then one more action, the print or
    the call as [dry] decides. *)
Lemma execute_runs_iff (m : Mesher) (script : Script) l r :
  runs (execute m script) l r <->
  l = [Imported; if dry m then Printed else Called script].
Proof.
  split.
  - intros H. inversion H as [r0 E | t0 l0 r0 E _ | X e0 k x l0 r0 E Hk];
      cbn in E; [discriminate E | discriminate E |].
    inversion E. subst X. inj_events. subst.
    assert (Hrest : runs (if dry m
                          then ITree.trigger Print_execute
                          else ITree.trigger (Call_meshfem3D script)
                          : itree (MeshfemE Script) unit) l0 r)
      by (eapply runs_observe; [| exact Hk]; reflexivity).
    cbn [action_of]. f_equal.
    destruct (dry m); apply runs_trigger_iff in Hrest; exact Hrest.
  - intros ->. eapply runs_vis with (x := tt) (e := Import_meshfem3D);
      [cbn; reflexivity |].
    eapply runs_observe with
      (t := if dry m
            then ITree.trigger Print_execute
            else ITree.trigger (Call_meshfem3D script));
      [reflexivity |].
    destruct (dry m); apply runs_trigger_iff; reflexivity.
Qed.

End Dispatch.

(** * The properties of the specification *)

Section Validation.

Context {U : Units} {C : Component}.

(** C1.  When the base class has validated and the processor grid is at
    least one by one (the inventory's [greaterEqual(1)]), [_validate]
    runs all twelve rules to the end and returns without raising; the
    entries it adds to the context are the specification's report: the
    entries of exactly the violated rules, each once, in the order of the
    table.  So the report has as many entries as there are violated
    rules: five for five, none for none. *)
Theorem validate_reports_exactly_the_violated_rules (st st1 : Store) :
  returns super_validate st tt st1 ->
  1 <= NPROC_XI (self st1) -> 1 <= NPROC_ETA (self st1) ->
  exists rep,
    _validate st = (inr tt, mkStore (self st1) (errors st1 ++ rep))
    /\ rep = map rule_error (filter (spec_violated (self st1)) all_rules)
    /\ (forall r, In (rule_error r) rep <-> spec_violated (self st1) r = true)
    /\ (forall e, In e rep ->
          exists r, e = rule_error r /\ spec_violated (self st1) r = true)
    /\ NoDup rep
    /\ List.length rep
       = List.length (filter (spec_violated (self st1)) all_rules)
    /\ (List.length rep = 0%nat <->
        forall r, spec_violated (self st1) r = false).
Proof.
  intros Hsuper Hxi Heta. exists (spec_report (self st1)).
  split; [exact (_validate_returns st st1 Hsuper Hxi Heta) |].
  split; [reflexivity |].
  split; [intros r; apply In_spec_report |].
  split; [intros e; apply spec_report_sound |].
  split; [apply NoDup_spec_report |].
  split; [apply length_spec_report |].
  rewrite length_zero_iff_nil. split.
  - intros Hnil r. destruct (spec_violated (self st1) r) eqn:Hv; [| reflexivity].
    apply In_spec_report in Hv. rewrite Hnil in Hv. destruct Hv.
  - intros Hnone. destruct (spec_report (self st1)) as [| e l] eqn:Hrep;
      [reflexivity |].
    destruct (spec_report_sound (self st1) e) as (r & _ & Hv).
    + rewrite Hrep. left. reflexivity.
    + rewrite Hnone in Hv. discriminate Hv.
Qed.

(** C2, as the code has it.  Each of the divisibility rules 4-7 and
    10-11 is reported exactly when its own condition holds, whatever the
    other rules do; with [NEX_XI = 50] and [NPROC_XI = 1] rule 6 is
    reported and rule 4 is not, as [(50 / 8) % 1] is 0. *)
Theorem divisibility_rules_fire_on_their_own_condition (st st1 : Store) :
  returns super_validate st tt st1 ->
  1 <= NPROC_XI (self st1) -> 1 <= NPROC_ETA (self st1) ->
  exists rep,
    _validate st = (inr tt, mkStore (self st1) (errors st1 ++ rep))
    /\ (In (rule_error R4) rep <->
        (NEX_XI (self st1) / 8) mod NPROC_XI (self st1) <> 0)
    /\ (In (rule_error R5) rep <->
        (NEX_ETA (self st1) / 8) mod NPROC_ETA (self st1) <> 0)
    /\ (In (rule_error R6) rep <-> NEX_XI (self st1) mod 8 <> 0)
    /\ (In (rule_error R7) rep <-> NEX_ETA (self st1) mod 8 <> 0)
    /\ (In (rule_error R10) rep <->
        (NEX_XI (self st1) / NPROC_XI (self st1)) mod 16 <> 0)
    /\ (In (rule_error R11) rep <->
        (NEX_ETA (self st1) / NPROC_ETA (self st1)) mod 16 <> 0)
    /\ (NEX_XI (self st1) = 50 -> NPROC_XI (self st1) = 1 ->
        In (rule_error R6) rep /\ ~ In (rule_error R4) rep).
Proof.
  intros Hsuper Hxi Heta. exists (spec_report (self st1)).
  split; [exact (_validate_returns st st1 Hsuper Hxi Heta) |].
  rewrite !In_spec_report. cbn [spec_violated].
  rewrite !negb_true_iff, !Z.eqb_neq.
  repeat (split; [tauto |]).
  intros H50 H1. rewrite H50, H1. split; [discriminate |].
  intros Hne. apply Hne. reflexivity.
Qed.

(** C3.  The report has the angular-width-xi entry (rule 1) exactly when
    there is more than one chunk and [angular_width_xi != 90.0*deg]; with
    at most one chunk it is absent whatever the angle. *)
Theorem angular_width_xi_rule_iff (st st1 : Store) :
  returns super_validate st tt st1 ->
  1 <= NPROC_XI (self st1) -> 1 <= NPROC_ETA (self st1) ->
  exists rep,
    _validate st = (inr tt, mkStore (self st1) (errors st1 ++ rep))
    /\ (In (rule_error R1) rep <->
        NCHUNKS (self st1) > 1
        /\ dim_ne (angular_width_xi (self st1)) deg90 = true)
    /\ (NCHUNKS (self st1) <= 1 -> ~ In (rule_error R1) rep).
Proof.
  intros Hsuper Hxi Heta. exists (spec_report (self st1)).
  split; [exact (_validate_returns st st1 Hsuper Hxi Heta) |].
  rewrite !In_spec_report. cbn [spec_violated].
  rewrite andb_true_iff, Z.gtb_gt. split; [tauto | lia].
Qed.

(** C4.  The minimum element count is inclusive at 48: rule 8 is
    reported exactly when [NEX_XI < 48], so not for 48 and for 47; rule 9
    exactly when [NEX_ETA < 48]. *)
Theorem minimum_nex_boundary_is_48 (st st1 : Store) :
  returns super_validate st tt st1 ->
  1 <= NPROC_XI (self st1) -> 1 <= NPROC_ETA (self st1) ->
  exists rep,
    _validate st = (inr tt, mkStore (self st1) (errors st1 ++ rep))
    /\ (In (rule_error R8) rep <-> NEX_XI (self st1) < 48)
    /\ (In (rule_error R9) rep <-> NEX_ETA (self st1) < 48)
    /\ (NEX_XI (self st1) = 48 -> ~ In (rule_error R8) rep)
    /\ (NEX_XI (self st1) = 47 -> In (rule_error R8) rep)
    /\ (NEX_ETA (self st1) = 48 -> ~ In (rule_error R9) rep)
    /\ (NEX_ETA (self st1) = 47 -> In (rule_error R9) rep).
Proof.
  intros Hsuper Hxi Heta. exists (spec_report (self st1)).
  split; [exact (_validate_returns st st1 Hsuper Hxi Heta) |].
  rewrite !In_spec_report. cbn [spec_violated].
  rewrite !Z.ltb_lt. repeat split; lia.
Qed.

(** C9.  With [NPROC_XI = 1] rule 4 is never reported, whatever
    [NEX_XI] is, multiple of 8 or not: the check takes the floor of
    [NEX_XI / 8] modulo 1.  Likewise rule 5 with [NPROC_ETA = 1]. *)
Theorem single_processor_silences_rules_4_and_5 (st st1 : Store) :
  returns super_validate st tt st1 ->
  1 <= NPROC_XI (self st1) -> 1 <= NPROC_ETA (self st1) ->
  exists rep,
    _validate st = (inr tt, mkStore (self st1) (errors st1 ++ rep))
    /\ (NPROC_XI (self st1) = 1 -> ~ In (rule_error R4) rep)
    /\ (NPROC_ETA (self st1) = 1 -> ~ In (rule_error R5) rep).
Proof.
  intros Hsuper Hxi Heta. exists (spec_report (self st1)).
  split; [exact (_validate_returns st st1 Hsuper Hxi Heta) |].
  rewrite !In_spec_report. cbn [spec_violated].
  split; intros ->; rewrite Z.mod_1_r; discriminate.
Qed.

(** C10.  With [NPROC_XI >= 1] and [NPROC_ETA >= 1] no division or
    modulo of [_validate] meets a zero divisor: once the base class has
    validated, the method returns and raises nothing.  [nproc] divides
    nowhere and returns on every store. *)
Theorem no_division_by_zero (st st1 : Store) :
  returns super_validate st tt st1 ->
  1 <= NPROC_XI (self st1) -> 1 <= NPROC_ETA (self st1) ->
  (exists st', _validate st = (inr tt, st'))
  /\ (forall e st', _validate st <> (inl e, st'))
  /\ (forall s, exists n, nproc s = (inr n, s)).
Proof.
  intros Hsuper Hxi Heta.
  pose proof (_validate_returns st st1 Hsuper Hxi Heta) as Hrun.
  unfold returns in Hrun. split; [eexists; exact Hrun |].
  split; [intros e st'; rewrite Hrun; discriminate |].
  intros s. eexists. reflexivity.
Qed.

(** C7.  [_validate] leaves the component as it found it, field by
    field, whether it returns or raises, provided the base class's
    [_validate] does. *)
Theorem validate_keeps_configuration (st : Store) :
  self (snd (super_validate st)) = self st ->
  let after := self (snd (_validate st)) in
  after = self st
  /\ SAVE_MESH_FILES after = SAVE_MESH_FILES (self st)
  /\ dry after = dry (self st)
  /\ angular_width_xi after = angular_width_xi (self st)
  /\ angular_width_eta after = angular_width_eta (self st)
  /\ center_latitude after = center_latitude (self st)
  /\ center_longitude after = center_longitude (self st)
  /\ gamma_rotation_azimuth after = gamma_rotation_azimuth (self st)
  /\ NCHUNKS after = NCHUNKS (self st)
  /\ NEX_XI after = NEX_XI (self st)
  /\ NEX_ETA after = NEX_ETA (self st)
  /\ NPROC_XI after = NPROC_XI (self st)
  /\ NPROC_ETA after = NPROC_ETA (self st).
Proof.
  intros Hsuper after.
  assert (E : after = self st) by exact (_validate_keeps_self_from st Hsuper).
  rewrite E. repeat split; reflexivity.
Qed.

(** C8.  A validation pass has no hidden state: run again on the
    component the first pass leaves, with a fresh context as before, it
    ends the same way with the same entries in the same order (the base
    class's [_validate] keeping the component). *)
Theorem validate_twice_same_report (m : Mesher) :
  self (snd (super_validate (mkStore m []))) = m ->
  validate (self (snd (validate m))) = validate m
  /\ errors (snd (validate (self (snd (validate m)))))
     = errors (snd (validate m)).
Proof.
  intros Hsuper.
  assert (E : self (snd (validate m)) = m)
    by exact (_validate_keeps_self_from (mkStore m []) Hsuper).
  rewrite E. split; reflexivity.
Qed.

(** C5.  [nproc] returns [NCHUNKS * NPROC_XI * NPROC_ETA] on every
    store and changes nothing, validated or not, also on the store a
    validation pass leaves however that pass ended; for 6 chunks on a
    2 by 3 grid it returns 36. *)
Theorem nproc_is_the_product :
  (forall s : Store,
      nproc s
      = (inr (NCHUNKS (self s) * NPROC_XI (self s) * NPROC_ETA (self s)), s))
  /\ (forall st : Store,
        let s := snd (_validate st) in
        nproc s
        = (inr (NCHUNKS (self s) * NPROC_XI (self s) * NPROC_ETA (self s)), s))
  /\ (forall save d wxi weta lat lon gam nex_xi nex_eta ctx,
        let s := mkStore (mkMesher save d wxi weta lat lon gam
                                   6 nex_xi nex_eta 2 3) ctx in
        nproc s = (inr 36, s)).
Proof. repeat split. Qed.

End Validation.

Section Execution.

Context {U : Units} {Script : Type}.

(** C6.  [execute] reaches the call [meshfem3D(script)] exactly when
    [dry] is false: a dry run never calls the mesher. *)
Theorem dry_run_never_calls_meshfem3D (m : Mesher) (script : Script) :
  (invokes_meshfem3D (execute m script) <-> dry m = false)
  /\ (~ invokes_meshfem3D (execute m script) <-> dry m = true).
Proof.
  pose proof (execute_invokes_iff m script) as H.
  split; [exact H |].
  rewrite H. destruct (dry m); split; congruence.
Qed.

End Execution.

(** * Further properties of the code *)

Section ValidationRules.

Context {U : Units} {C : Component}.

(** When validation returns with the context as the base class left it,
    no rule was violated. *)
Lemma nothing_reported (st st1 : Store) :
  returns super_validate st tt st1 ->
  1 <= NPROC_XI (self st1) -> 1 <= NPROC_ETA (self st1) ->
  returns _validate st tt st1 ->
  spec_report (self st1) = [].
Proof.
  intros Hsuper Hxi Heta Hrun.
  pose proof (_validate_returns st st1 Hsuper Hxi Heta) as Hrep.
  unfold returns in Hrun, Hrep. rewrite Hrun in Hrep.
  destruct st1 as [m ctx]. unfold push in Hrep. cbn [self errors] in *.
  injection Hrep as Hctx.
  apply (app_inv_head ctx). rewrite app_nil_r. symmetry. exact Hctx.
Qed.

(** X1.  The rules guarded by [NCHUNKS > 2] (lines 51-61 and 100-105):
    rule 2 is reported exactly when there are more than two chunks and
    [angular_width_eta != 90.0*deg], rule 3 exactly when there are more
    than two chunks and the two processor counts differ, rule 12 exactly
    when there are more than two chunks and the floors of the elements
    per processor differ.  With at most two chunks none of the three is
    reported. *)
Theorem chunk_guarded_rules_iff (st st1 : Store) :
  returns super_validate st tt st1 ->
  1 <= NPROC_XI (self st1) -> 1 <= NPROC_ETA (self st1) ->
  exists rep,
    _validate st = (inr tt, mkStore (self st1) (errors st1 ++ rep))
    /\ (In (rule_error R2) rep <->
        NCHUNKS (self st1) > 2
        /\ dim_ne (angular_width_eta (self st1)) deg90 = true)
    /\ (In (rule_error R3) rep <->
        NCHUNKS (self st1) > 2 /\ NPROC_XI (self st1) <> NPROC_ETA (self st1))
    /\ (In (rule_error R12) rep <->
        NCHUNKS (self st1) > 2
        /\ NEX_XI (self st1) / NPROC_XI (self st1)
           <> NEX_ETA (self st1) / NPROC_ETA (self st1))
    /\ (NCHUNKS (self st1) <= 2 ->
        ~ In (rule_error R2) rep /\ ~ In (rule_error R3) rep
        /\ ~ In (rule_error R12) rep).
Proof.
  intros Hsuper Hxi Heta. exists (spec_report (self st1)).
  split; [exact (_validate_returns st st1 Hsuper Hxi Heta) |].
  rewrite !In_spec_report. cbn [spec_violated].
  rewrite !andb_true_iff, !Z.gtb_gt, !negb_true_iff, !Z.eqb_neq.
  repeat split; try tauto; lia.
Qed.

(** X2.  Lines 64-75 together decide what the message of rule 4 asks
    for: neither rule 4 nor rule 6 is reported exactly when [NEX_XI] is a
    multiple of [8 * NPROC_XI]; so a reported rule 4 is never a false
    alarm.  Likewise rules 5 and 7 for [NEX_ETA]. *)
Theorem rules_4_and_6_decide_multiple_of_8_nproc (st st1 : Store) :
  returns super_validate st tt st1 ->
  1 <= NPROC_XI (self st1) -> 1 <= NPROC_ETA (self st1) ->
  exists rep,
    _validate st = (inr tt, mkStore (self st1) (errors st1 ++ rep))
    /\ (~ In (rule_error R4) rep /\ ~ In (rule_error R6) rep <->
        NEX_XI (self st1) mod (8 * NPROC_XI (self st1)) = 0)
    /\ (~ In (rule_error R5) rep /\ ~ In (rule_error R7) rep <->
        NEX_ETA (self st1) mod (8 * NPROC_ETA (self st1)) = 0)
    /\ (In (rule_error R4) rep ->
        NEX_XI (self st1) mod (8 * NPROC_XI (self st1)) <> 0)
    /\ (In (rule_error R5) rep ->
        NEX_ETA (self st1) mod (8 * NPROC_ETA (self st1)) <> 0).
Proof.
  intros Hsuper Hxi Heta. exists (spec_report (self st1)).
  split; [exact (_validate_returns st st1 Hsuper Hxi Heta) |].
  rewrite !In_spec_report. cbn [spec_violated].
  rewrite !negb_true_iff, !Z.eqb_neq.
  rewrite (multiple_of_8p _ _ Hxi), (multiple_of_8p _ _ Heta).
  repeat split; lia.
Qed.

(** X3.  With rule 10 (lines 86-93) the three checks on [NEX_XI] pass
    together exactly when [NEX_XI] is a multiple of [16 * NPROC_XI]:
    every processor then has a whole number of elements, a multiple of
    16.  Likewise rules 5, 7 and 11 for [NEX_ETA]. *)
Theorem divisibility_rules_decide_multiple_of_16_nproc (st st1 : Store) :
  returns super_validate st tt st1 ->
  1 <= NPROC_XI (self st1) -> 1 <= NPROC_ETA (self st1) ->
  exists rep,
    _validate st = (inr tt, mkStore (self st1) (errors st1 ++ rep))
    /\ (~ In (rule_error R4) rep /\ ~ In (rule_error R6) rep
        /\ ~ In (rule_error R10) rep <->
        NEX_XI (self st1) mod (16 * NPROC_XI (self st1)) = 0)
    /\ (~ In (rule_error R5) rep /\ ~ In (rule_error R7) rep
        /\ ~ In (rule_error R11) rep <->
        NEX_ETA (self st1) mod (16 * NPROC_ETA (self st1)) = 0).
Proof.
  intros Hsuper Hxi Heta. exists (spec_report (self st1)).
  split; [exact (_validate_returns st st1 Hsuper Hxi Heta) |].
  rewrite !In_spec_report. cbn [spec_violated].
  rewrite !negb_true_iff, !Z.eqb_neq.
  rewrite (multiple_of_16p _ _ Hxi), (multiple_of_16p _ _ Heta).
  repeat split; lia.
Qed.

(** X4.  The configurations [_validate] accepts: it adds no entry
    exactly when the widths are 90 degrees where the chunk count asks
    for it, both element counts are at least 48 and multiples of 16 times
    their processor count, and, beyond two chunks, the processor counts
    are equal and the element counts are equal. *)
Theorem report_empty_iff (st st1 : Store) :
  returns super_validate st tt st1 ->
  1 <= NPROC_XI (self st1) -> 1 <= NPROC_ETA (self st1) ->
  exists rep,
    _validate st = (inr tt, mkStore (self st1) (errors st1 ++ rep))
    /\ (rep = [] <->
        (NCHUNKS (self st1) > 1 ->
         dim_ne (angular_width_xi (self st1)) deg90 = false)
        /\ (NCHUNKS (self st1) > 2 ->
            dim_ne (angular_width_eta (self st1)) deg90 = false
            /\ NPROC_XI (self st1) = NPROC_ETA (self st1)
            /\ NEX_XI (self st1) = NEX_ETA (self st1))
        /\ NEX_XI (self st1) mod (16 * NPROC_XI (self st1)) = 0
        /\ NEX_ETA (self st1) mod (16 * NPROC_ETA (self st1)) = 0
        /\ 48 <= NEX_XI (self st1) /\ 48 <= NEX_ETA (self st1)).
Proof.
  intros Hsuper Hxi Heta. exists (spec_report (self st1)).
  split; [exact (_validate_returns st st1 Hsuper Hxi Heta) |].
  rewrite spec_report_nil_iff. apply none_violated_iff; assumption.
Qed.

(** X5.  [_validate] and [nproc] together: when validation adds no entry,
    the elements are split evenly, the processors that [nproc] counts
    having [NEX_XI / NPROC_XI] by [NEX_ETA / NPROC_ETA] elements each with
    nothing left over; beyond two chunks the count is [NCHUNKS] times a
    square. *)
Theorem accepted_mesh_is_split_evenly (st st1 : Store) :
  returns super_validate st tt st1 ->
  1 <= NPROC_XI (self st1) -> 1 <= NPROC_ETA (self st1) ->
  returns _validate st tt st1 ->
  exists n,
    nproc st1 = (inr n, st1)
    /\ n * ((NEX_XI (self st1) / NPROC_XI (self st1))
            * (NEX_ETA (self st1) / NPROC_ETA (self st1)))
       = NCHUNKS (self st1) * (NEX_XI (self st1) * NEX_ETA (self st1))
    /\ (NCHUNKS (self st1) > 2 ->
        n = NCHUNKS (self st1) * (NPROC_XI (self st1) * NPROC_XI (self st1))).
Proof.
  intros Hsuper Hxi Heta Hrun.
  pose proof (proj1 (spec_report_nil_iff (self st1))
                    (nothing_reported st st1 Hsuper Hxi Heta Hrun)) as Hnone.
  pose proof (proj1 (none_violated_iff (self st1) Hxi Heta) Hnone) as Hnil.
  destruct Hnil as (_ & Hc & Hx & He & _ & _).
  apply multiple_of_16p_exact in Hx; [| exact Hxi].
  apply multiple_of_16p_exact in He; [| exact Heta].
  destruct Hx as [Hx _]. destruct He as [He _].
  eexists. split; [reflexivity |]. split.
  - rewrite <- Hx at 2. rewrite <- He at 2. ring.
  - intros H2. destruct (Hc H2) as (_ & <- & _). ring.
Qed.

(** X6.  An accepted mesh bounds the processor grid: when validation
    adds no entry, each processor has at least 16 elements along each
    direction, so there are at most [NEX_XI / 16] processors along xi and
    [NEX_ETA / 16] along eta. *)
Theorem accepted_mesh_bounds_the_grid (st st1 : Store) :
  returns super_validate st tt st1 ->
  1 <= NPROC_XI (self st1) -> 1 <= NPROC_ETA (self st1) ->
  returns _validate st tt st1 ->
  16 <= NEX_XI (self st1) / NPROC_XI (self st1)
  /\ 16 <= NEX_ETA (self st1) / NPROC_ETA (self st1)
  /\ NPROC_XI (self st1) <= NEX_XI (self st1) / 16
  /\ NPROC_ETA (self st1) <= NEX_ETA (self st1) / 16.
Proof.
  intros Hsuper Hxi Heta Hrun.
  pose proof (proj1 (spec_report_nil_iff (self st1))
                    (nothing_reported st st1 Hsuper Hxi Heta Hrun)) as Hnone.
  pose proof (proj1 (none_violated_iff (self st1) Hxi Heta) Hnone) as Hnil.
  destruct Hnil as (_ & _ & Hx & He & Hx48 & He48).
  apply multiple_of_16p_exact in Hx; [| exact Hxi].
  apply multiple_of_16p_exact in He; [| exact Heta].
  destruct Hx as [Hx Hqx]. destruct He as [He Hqe].
  apply Z.mod_divide in Hqx; [| lia]. destruct Hqx as [a Ha].
  apply Z.mod_divide in Hqe; [| lia]. destruct Hqe as [b Hb].
  rewrite Ha in Hx. rewrite Hb in He. rewrite Ha, Hb.
  assert (Hpa : 1 <= a).
  { destruct (Z.le_gt_cases a 0) as [Hneg | Hpos]; [| lia].
    pose proof (Z.mul_nonneg_nonpos (NPROC_XI (self st1)) a). lia. }
  assert (Hpb : 1 <= b).
  { destruct (Z.le_gt_cases b 0) as [Hneg | Hpos]; [| lia].
    pose proof (Z.mul_nonneg_nonpos (NPROC_ETA (self st1)) b). lia. }
  split; [lia |]. split; [lia |].
  split; apply Z.div_le_lower_bound; nia.
Qed.

(** X7.  The one exception of lines 44-105: after the base class,
    [_validate] raises only [ZeroDivisionError] and only for a processor
    count of 0.  With [NPROC_XI = 0] it stops at line 64 and the context
    keeps the entries of the violated ones of rules 1 to 3; with
    [NPROC_ETA = 0] alone it stops at line 67, after rule 4 as well. *)
Theorem zero_grid_raises_after_partial_report (st st1 : Store) :
  returns super_validate st tt st1 ->
  (NPROC_XI (self st1) = 0 ->
   _validate st
   = (inl ZeroDivisionError,
      mkStore (self st1)
              (errors st1
               ++ map rule_error
                    (filter (spec_violated (self st1)) [R1; R2; R3]))))
  /\ (NPROC_XI (self st1) <> 0 -> NPROC_ETA (self st1) = 0 ->
      _validate st
      = (inl ZeroDivisionError,
         mkStore (self st1)
                 (errors st1
                  ++ map rule_error
                       (filter (spec_violated (self st1)) [R1; R2; R3; R4]))))
  /\ (forall e st',
        _validate st = (inl e, st') ->
        e = ZeroDivisionError
        /\ (NPROC_XI (self st1) = 0 \/ NPROC_ETA (self st1) = 0)).
Proof.
  intros Hsuper. split; [| split].
  - intros Hx. exact (_validate_raises_at_line_64 st st1 Hsuper Hx).
  - intros Hx He. exact (_validate_raises_at_line_67 st st1 Hsuper Hx He).
  - intros e st' Hraise.
    destruct (Z.eq_dec (NPROC_XI (self st1)) 0) as [Hx | Hx].
    + pose proof (_validate_raises_at_line_64 st st1 Hsuper Hx) as H.
      unfold raises in H. rewrite H in Hraise. injection Hraise as <- _. tauto.
    + destruct (Z.eq_dec (NPROC_ETA (self st1)) 0) as [He | He].
      * pose proof (_validate_raises_at_line_67 st st1 Hsuper Hx He) as H.
        unfold raises in H. rewrite H in Hraise. injection Hraise as <- _. tauto.
      * pose proof (_validate_returns_nonzero st st1 Hsuper Hx He) as H.
        unfold returns in H. rewrite H in Hraise. discriminate Hraise.
Qed.

(** X8.  Whatever the component holds and however the method ends,
    [_validate] only appends to the context: the errors the base class
    left are kept, in place, and are followed by at most twelve entries,
    each the entry of one of the twelve rules, none twice. *)
Theorem validate_only_appends (st : Store) :
  exists l,
    errors (snd (_validate st)) = errors (snd (super_validate st)) ++ l
    /\ (forall e, In e l -> exists r, e = rule_error r)
    /\ NoDup l
    /\ (List.length l <= 12)%nat.
Proof.
  assert (Hsub : forall (m : Mesher) (rs : list Rule),
             NoDup rs -> (List.length rs <= 12)%nat ->
             let l := map rule_error (filter (spec_violated m) rs) in
             (forall e, In e l -> exists r, e = rule_error r)
             /\ NoDup l /\ (List.length l <= 12)%nat).
  { intros m rs Hnd Hlen l.
    destruct (partial_report_entries m rs Hnd) as (Hin & Hnd' & Hlen').
    split; [| split; [exact Hnd' | fold l in Hlen'; lia]].
    intros e He. destruct (Hin e He) as (r & -> & _). exists r. reflexivity. }
  destruct (super_validate st) as [[e | []] st1] eqn:Hs.
  - exists []. rewrite (_validate_raises_super st e st1 Hs). cbn [snd].
    rewrite app_nil_r. split; [reflexivity |].
    split; [intros x [] |]. split; [constructor | cbn; lia].
  - destruct (Z.eq_dec (NPROC_XI (self st1)) 0) as [Hx | Hx];
      [| destruct (Z.eq_dec (NPROC_ETA (self st1)) 0) as [He | He]].
    + exists (map rule_error (filter (spec_violated (self st1)) [R1; R2; R3])).
      rewrite (_validate_raises_at_line_64 st st1 Hs Hx). cbn [snd].
      split; [reflexivity |]. apply Hsub; [| cbn; lia].
      repeat (constructor; [cbn [In]; intuition discriminate |]). constructor.
    + exists (map rule_error
                  (filter (spec_violated (self st1)) [R1; R2; R3; R4])).
      rewrite (_validate_raises_at_line_67 st st1 Hs Hx He). cbn [snd].
      split; [reflexivity |]. apply Hsub; [| cbn; lia].
      repeat (constructor; [cbn [In]; intuition discriminate |]). constructor.
    + exists (spec_report (self st1)).
      rewrite (_validate_returns_nonzero st st1 Hs Hx He). cbn [snd].
      split; [reflexivity |]. apply Hsub; [| cbn; lia].
      apply NoDup_all_rules.
Qed.

(** X10.  For a component whose inventory passed its validators (lines
    30-34), [nproc] is at least the chunk count, hence positive, and a
    multiple of it; it is the chunk count exactly on a 1 by 1 grid. *)
Theorem nproc_positive_multiple_of_chunks (s : Store) :
  inventory_valid (self s) ->
  exists n,
    nproc s = (inr n, s)
    /\ 1 <= NCHUNKS (self s) <= n
    /\ n mod NCHUNKS (self s) = 0
    /\ (n = NCHUNKS (self s) <->
        NPROC_XI (self s) = 1 /\ NPROC_ETA (self s) = 1).
Proof.
  intros (Hc & Hxi & Heta).
  assert (Hc1 : 1 <= NCHUNKS (self s))
    by (cbn [In] in Hc; lia).
  assert (Hg : 1 <= NPROC_XI (self s) * NPROC_ETA (self s)) by nia.
  exists (NCHUNKS (self s) * NPROC_XI (self s) * NPROC_ETA (self s)).
  split; [reflexivity |].
  rewrite <- Z.mul_assoc.
  split; [nia |]. split.
  - rewrite Z.mul_comm. apply Z.mod_mul. lia.
  - split; [intros Hn | intros [-> ->]; ring].
    assert (Hg1 : NPROC_XI (self s) * NPROC_ETA (self s) = 1) by nia.
    nia.
Qed.

End ValidationRules.

Section ExecutionTrace.

Context {U : Units} {Script : Type}.

(** X9.  What [execute] does (lines 136-143), in full: it imports
    [meshfem3D] first, dry run or not, then does one thing more and
    returns: the print when [dry] is set, else the call of [meshfem3D]
    with the script it was given. *)
Theorem execute_imports_then_prints_or_calls
        (m : Mesher) (script : Script) l r :
  runs (execute m script) l r <->
  l = [Imported; if dry m then Printed else Called script].
Proof. apply execute_runs_iff. Qed.

End ExecutionTrace.

(** * The properties on concrete components *)

Section Examples.

#[local] Existing Instance DegreeUnits.
#[local] Existing Instance PlainComponent.

Example default_mesher_is_valid :
  validate default_mesher = (inr tt, fresh default_mesher).
Proof. reflexivity. Qed.

Example five_violations_report :
  map rule_number (filter (spec_violated five_violations) all_rules)
  = [1; 3; 9; 11; 12]
  /\ report_of five_violations
     = map rule_error [R1; R3; R9; R11; R12].
Proof. split; reflexivity. Qed.

Example default_mesher_inventory_valid : inventory_valid default_mesher.
Proof. unfold inventory_valid. cbn. split; [tauto | split; discriminate]. Qed.

Example dry_default_prints_only :
  ~ invokes_meshfem3D (execute (with_dry default_mesher true) tt)
  /\ invokes_meshfem3D (execute (with_dry default_mesher false) tt).
Proof.
  split.
  - intros H. apply execute_invokes_iff in H. discriminate H.
  - apply execute_invokes_iff. reflexivity.
Qed.

Example empty_grid_raises :
  fst (validate (with_grid default_mesher 6 64 64 0 1))
  = inl ZeroDivisionError.
Proof. reflexivity. Qed.

Lemma validate_reports_exactly_the_violated_rules_witness :
  returns super_validate (fresh five_violations) tt (fresh five_violations)
  /\ 1 <= NPROC_XI five_violations /\ 1 <= NPROC_ETA five_violations
  /\ exists rep,
       _validate (fresh five_violations)
       = (inr tt, mkStore five_violations ([] ++ rep))
       /\ List.length rep = 5%nat.
Proof.
  assert (H1 : returns super_validate (fresh five_violations) tt
                       (fresh five_violations)) by reflexivity.
  assert (H2 : 1 <= NPROC_XI (self (fresh five_violations)))
    by (vm_compute; discriminate).
  assert (H3 : 1 <= NPROC_ETA (self (fresh five_violations)))
    by (vm_compute; discriminate).
  split; [exact H1 |]. split; [exact H2 |]. split; [exact H3 |].
  destruct (validate_reports_exactly_the_violated_rules _ _ H1 H2 H3)
    as (rep & Hrun & _ & _ & _ & _ & Hlen & _).
  exists rep. split; [exact Hrun | exact Hlen].
Defined.

(** C2, as the specification states it, fails: with [NEX_XI = 50] on one
    processor the report has the entry of rule 6 but not that of
    rule 4. *)
Lemma nex_50_reports_rule_6_without_rule_4 :
  ~ (In (rule_error R4) (report_of nex_50)
     /\ In (rule_error R6) (report_of nex_50)).
Proof.
  intros [H4 _]. vm_compute in H4.
  repeat (destruct H4 as [H4 | H4]; [discriminate H4 |]).
  exact H4.
Qed.

(** The hypotheses of the validation theorems, at a fresh store. *)
Ltac at_fresh m H1 H2 H3 :=
  assert (H1 : returns super_validate (fresh m) tt (fresh m))
    by reflexivity;
  assert (H2 : 1 <= NPROC_XI (self (fresh m)))
    by (vm_compute; discriminate);
  assert (H3 : 1 <= NPROC_ETA (self (fresh m)))
    by (vm_compute; discriminate).

Lemma divisibility_rules_fire_on_their_own_condition_witness :
  returns super_validate (fresh nex_50) tt (fresh nex_50)
  /\ 1 <= NPROC_XI nex_50 /\ 1 <= NPROC_ETA nex_50
  /\ exists rep,
       _validate (fresh nex_50) = (inr tt, mkStore nex_50 ([] ++ rep))
       /\ In (rule_error R6) rep /\ ~ In (rule_error R4) rep
       /\ In (rule_error R10) rep /\ ~ In (rule_error R11) rep.
Proof.
  at_fresh nex_50 H1 H2 H3.
  split; [exact H1 |]. split; [exact H2 |]. split; [exact H3 |].
  destruct (divisibility_rules_fire_on_their_own_condition _ _ H1 H2 H3)
    as (rep & Hrun & _ & _ & _ & _ & H10 & H11 & H50).
  exists rep. split; [exact Hrun |].
  destruct (H50 eq_refl eq_refl) as [H6 H4].
  split; [exact H6 |]. split; [exact H4 |].
  split; [apply H10; vm_compute; discriminate |].
  intros H. apply H11 in H. apply H. reflexivity.
Defined.

Lemma angular_width_xi_rule_iff_witness :
  (returns super_validate (fresh five_violations) tt (fresh five_violations)
   /\ 1 <= NPROC_XI five_violations /\ 1 <= NPROC_ETA five_violations
   /\ exists rep,
        _validate (fresh five_violations)
        = (inr tt, mkStore five_violations ([] ++ rep))
        /\ In (rule_error R1) rep)
  /\ (returns super_validate (fresh one_chunk_48_47) tt (fresh one_chunk_48_47)
      /\ 1 <= NPROC_XI one_chunk_48_47 /\ 1 <= NPROC_ETA one_chunk_48_47
      /\ exists rep,
           _validate (fresh one_chunk_48_47)
           = (inr tt, mkStore one_chunk_48_47 ([] ++ rep))
           /\ ~ In (rule_error R1) rep).
Proof.
  split.
  - at_fresh five_violations H1 H2 H3.
    split; [exact H1 |]. split; [exact H2 |]. split; [exact H3 |].
    destruct (angular_width_xi_rule_iff _ _ H1 H2 H3) as (rep & Hrun & Hiff & _).
    exists rep. split; [exact Hrun |].
    apply Hiff. split; reflexivity.
  - at_fresh one_chunk_48_47 H1 H2 H3.
    split; [exact H1 |]. split; [exact H2 |]. split; [exact H3 |].
    destruct (angular_width_xi_rule_iff _ _ H1 H2 H3) as (rep & Hrun & _ & Hone).
    exists rep. split; [exact Hrun |].
    apply Hone. vm_compute. discriminate.
Defined.

Lemma minimum_nex_boundary_is_48_witness :
  returns super_validate (fresh one_chunk_48_47) tt (fresh one_chunk_48_47)
  /\ 1 <= NPROC_XI one_chunk_48_47 /\ 1 <= NPROC_ETA one_chunk_48_47
  /\ exists rep,
       _validate (fresh one_chunk_48_47)
       = (inr tt, mkStore one_chunk_48_47 ([] ++ rep))
       /\ ~ In (rule_error R8) rep /\ In (rule_error R9) rep.
Proof.
  at_fresh one_chunk_48_47 H1 H2 H3.
  split; [exact H1 |]. split; [exact H2 |]. split; [exact H3 |].
  destruct (minimum_nex_boundary_is_48 _ _ H1 H2 H3)
    as (rep & Hrun & _ & _ & H48 & _ & _ & H47).
  exists rep. split; [exact Hrun |].
  split; [apply H48 | apply H47]; reflexivity.
Defined.

Lemma single_processor_silences_rules_4_and_5_witness :
  returns super_validate (fresh nex_50) tt (fresh nex_50)
  /\ 1 <= NPROC_XI nex_50 /\ 1 <= NPROC_ETA nex_50
  /\ exists rep,
       _validate (fresh nex_50) = (inr tt, mkStore nex_50 ([] ++ rep))
       /\ ~ In (rule_error R4) rep /\ ~ In (rule_error R5) rep.
Proof.
  at_fresh nex_50 H1 H2 H3.
  split; [exact H1 |]. split; [exact H2 |]. split; [exact H3 |].
  destruct (single_processor_silences_rules_4_and_5 _ _ H1 H2 H3)
    as (rep & Hrun & H4 & H5).
  exists rep. split; [exact Hrun |].
  split; [apply H4 | apply H5]; reflexivity.
Defined.

Lemma no_division_by_zero_witness :
  returns super_validate (fresh five_violations) tt (fresh five_violations)
  /\ 1 <= NPROC_XI five_violations /\ 1 <= NPROC_ETA five_violations
  /\ (exists st', _validate (fresh five_violations) = (inr tt, st'))
  /\ exists n, nproc (fresh five_violations) = (inr n, fresh five_violations).
Proof.
  at_fresh five_violations H1 H2 H3.
  split; [exact H1 |]. split; [exact H2 |]. split; [exact H3 |].
  destruct (no_division_by_zero _ _ H1 H2 H3) as (Hret & _ & Hnproc).
  split; [exact Hret | apply Hnproc].
Defined.

Lemma validate_keeps_configuration_witness :
  self (snd (super_validate (fresh five_violations))) = five_violations
  /\ self (snd (_validate (fresh five_violations))) = five_violations
  /\ NEX_ETA (self (snd (_validate (fresh five_violations)))) = 40.
Proof.
  assert (H : self (snd (super_validate (fresh five_violations)))
              = self (fresh five_violations)) by reflexivity.
  split; [exact H |].
  destruct (validate_keeps_configuration _ H)
    as (Hself & _ & _ & _ & _ & _ & _ & _ & _ & _ & Heta & _).
  split; [exact Hself | exact Heta].
Defined.

Lemma validate_twice_same_report_witness :
  self (snd (super_validate (mkStore five_violations []))) = five_violations
  /\ validate (self (snd (validate five_violations)))
     = validate five_violations.
Proof.
  assert (H : self (snd (super_validate (mkStore five_violations [])))
              = five_violations) by reflexivity.
  split; [exact H |].
  exact (proj1 (validate_twice_same_report _ H)).
Defined.

Example grid_96_2_is_accepted :
  validate grid_96_2 = (inr tt, fresh grid_96_2).
Proof. reflexivity. Qed.

Lemma chunk_guarded_rules_iff_witness :
  returns super_validate (fresh five_violations) tt (fresh five_violations)
  /\ 1 <= NPROC_XI five_violations /\ 1 <= NPROC_ETA five_violations
  /\ exists rep,
       _validate (fresh five_violations)
       = (inr tt, mkStore five_violations ([] ++ rep))
       /\ ~ In (rule_error R2) rep
       /\ In (rule_error R3) rep /\ In (rule_error R12) rep.
Proof.
  at_fresh five_violations H1 H2 H3.
  split; [exact H1 |]. split; [exact H2 |]. split; [exact H3 |].
  destruct (chunk_guarded_rules_iff _ _ H1 H2 H3)
    as (rep & Hrun & Hr2 & Hr3 & Hr12 & _).
  exists rep. split; [exact Hrun |]. split; [| split].
  - intros H. apply Hr2 in H. destruct H as [_ H]. discriminate H.
  - apply Hr3. split; [reflexivity | discriminate].
  - apply Hr12. split; [reflexivity | discriminate].
Defined.

Lemma rules_4_and_6_decide_multiple_of_8_nproc_witness :
  returns super_validate (fresh nex_50) tt (fresh nex_50)
  /\ 1 <= NPROC_XI nex_50 /\ 1 <= NPROC_ETA nex_50
  /\ exists rep,
       _validate (fresh nex_50) = (inr tt, mkStore nex_50 ([] ++ rep))
       /\ ~ (~ In (rule_error R4) rep /\ ~ In (rule_error R6) rep)
       /\ ~ In (rule_error R5) rep /\ ~ In (rule_error R7) rep.
Proof.
  at_fresh nex_50 H1 H2 H3.
  split; [exact H1 |]. split; [exact H2 |]. split; [exact H3 |].
  destruct (rules_4_and_6_decide_multiple_of_8_nproc _ _ H1 H2 H3)
    as (rep & Hrun & Hxi & Heta & _ & _).
  exists rep. split; [exact Hrun |]. split.
  - intros H. apply Hxi in H. discriminate H.
  - apply Heta. reflexivity.
Defined.

Lemma divisibility_rules_decide_multiple_of_16_nproc_witness :
  returns super_validate (fresh grid_96_2) tt (fresh grid_96_2)
  /\ 1 <= NPROC_XI grid_96_2 /\ 1 <= NPROC_ETA grid_96_2
  /\ exists rep,
       _validate (fresh grid_96_2) = (inr tt, mkStore grid_96_2 ([] ++ rep))
       /\ ~ In (rule_error R4) rep /\ ~ In (rule_error R6) rep
       /\ ~ In (rule_error R10) rep.
Proof.
  at_fresh grid_96_2 H1 H2 H3.
  split; [exact H1 |]. split; [exact H2 |]. split; [exact H3 |].
  destruct (divisibility_rules_decide_multiple_of_16_nproc _ _ H1 H2 H3)
    as (rep & Hrun & Hxi & _).
  exists rep. split; [exact Hrun |]. apply Hxi. reflexivity.
Defined.

Lemma report_empty_iff_witness :
  returns super_validate (fresh grid_96_2) tt (fresh grid_96_2)
  /\ 1 <= NPROC_XI grid_96_2 /\ 1 <= NPROC_ETA grid_96_2
  /\ exists rep,
       _validate (fresh grid_96_2) = (inr tt, mkStore grid_96_2 ([] ++ rep))
       /\ rep = [].
Proof.
  at_fresh grid_96_2 H1 H2 H3.
  split; [exact H1 |]. split; [exact H2 |]. split; [exact H3 |].
  destruct (report_empty_iff _ _ H1 H2 H3) as (rep & Hrun & Hiff).
  exists rep. split; [exact Hrun |]. apply Hiff.
  split; [intros _; reflexivity |].
  split; [intros _; repeat split; reflexivity |].
  repeat split; vm_compute; discriminate.
Defined.

Lemma accepted_mesh_is_split_evenly_witness :
  returns super_validate (fresh grid_96_2) tt (fresh grid_96_2)
  /\ 1 <= NPROC_XI grid_96_2 /\ 1 <= NPROC_ETA grid_96_2
  /\ returns _validate (fresh grid_96_2) tt (fresh grid_96_2)
  /\ exists n,
       nproc (fresh grid_96_2) = (inr n, fresh grid_96_2)
       /\ n * (48 * 48) = 6 * (96 * 96).
Proof.
  at_fresh grid_96_2 H1 H2 H3.
  assert (H4 : returns _validate (fresh grid_96_2) tt (fresh grid_96_2))
    by reflexivity.
  split; [exact H1 |]. split; [exact H2 |]. split; [exact H3 |].
  split; [exact H4 |].
  destruct (accepted_mesh_is_split_evenly _ _ H1 H2 H3 H4)
    as (n & Hn & Hsplit & _).
  exists n. split; [exact Hn | exact Hsplit].
Defined.

Lemma accepted_mesh_bounds_the_grid_witness :
  returns super_validate (fresh grid_96_2) tt (fresh grid_96_2)
  /\ 1 <= NPROC_XI grid_96_2 /\ 1 <= NPROC_ETA grid_96_2
  /\ returns _validate (fresh grid_96_2) tt (fresh grid_96_2)
  /\ 16 <= NEX_XI grid_96_2 / NPROC_XI grid_96_2
  /\ NPROC_XI grid_96_2 <= NEX_XI grid_96_2 / 16.
Proof.
  at_fresh grid_96_2 H1 H2 H3.
  assert (H4 : returns _validate (fresh grid_96_2) tt (fresh grid_96_2))
    by reflexivity.
  split; [exact H1 |]. split; [exact H2 |]. split; [exact H3 |].
  split; [exact H4 |].
  destruct (accepted_mesh_bounds_the_grid _ _ H1 H2 H3 H4)
    as (Hq & _ & Hp & _).
  split; [exact Hq | exact Hp].
Defined.

Lemma zero_grid_raises_after_partial_report_witness :
  (returns super_validate (fresh no_proc_xi) tt (fresh no_proc_xi)
   /\ NPROC_XI no_proc_xi = 0
   /\ _validate (fresh no_proc_xi)
      = (inl ZeroDivisionError, mkStore no_proc_xi [rule_error R1; rule_error R3]))
  /\ (returns super_validate (fresh no_proc_eta) tt (fresh no_proc_eta)
      /\ NPROC_XI no_proc_eta <> 0 /\ NPROC_ETA no_proc_eta = 0
      /\ _validate (fresh no_proc_eta)
         = (inl ZeroDivisionError,
            mkStore no_proc_eta
                    [rule_error R1; rule_error R3; rule_error R4])).
Proof.
  split.
  - assert (H1 : returns super_validate (fresh no_proc_xi) tt (fresh no_proc_xi))
      by reflexivity.
    assert (H2 : NPROC_XI (self (fresh no_proc_xi)) = 0) by reflexivity.
    split; [exact H1 |]. split; [exact H2 |].
    exact (proj1 (zero_grid_raises_after_partial_report _ _ H1) H2).
  - assert (H1 : returns super_validate (fresh no_proc_eta) tt (fresh no_proc_eta))
      by reflexivity.
    assert (H2 : NPROC_XI (self (fresh no_proc_eta)) <> 0)
      by (vm_compute; discriminate).
    assert (H3 : NPROC_ETA (self (fresh no_proc_eta)) = 0) by reflexivity.
    split; [exact H1 |]. split; [exact H2 |]. split; [exact H3 |].
    exact (proj1 (proj2 (zero_grid_raises_after_partial_report _ _ H1)) H2 H3).
Defined.

Lemma nproc_positive_multiple_of_chunks_witness :
  inventory_valid five_violations
  /\ exists n,
       nproc (fresh five_violations) = (inr n, fresh five_violations)
       /\ 1 <= 6 <= n /\ n mod 6 = 0.
Proof.
  assert (H : inventory_valid (self (fresh five_violations))).
  { unfold inventory_valid. cbn. split; [tauto | split; discriminate]. }
  split; [exact H |].
  destruct (nproc_positive_multiple_of_chunks _ H) as (n & Hn & Hle & Hmod & _).
  exists n. split; [exact Hn |]. split; [exact Hle | exact Hmod].
Defined.

End Examples.
